(** * Interactive command-line prompts: a shallow embedding

    The Go programs of the tutorial (text prompt, password prompt, yes/no
    prompt, check boxes) are embedded as functions over an explicit [World]
    that holds the standard streams.  Go strings are byte strings and are
    modelled as [string] (one [ascii] per byte).  The endless [for] loops
    of the prompts are run with a bound on the number of iterations; an
    outcome [Pending] says that the loop is still going after that many
    iterations. *)

From Stdlib Require Import String Ascii List NArith ZArith Bool Arith Lia.
Import ListNotations.
Local Open Scope string_scope.

(** ** Byte strings *)

Module GoString.

(** The line feed ['\n'], the delimiter of [ReadString] and the byte that
    ends a hidden line. *)
Definition LF : string := String (ascii_of_N 10) EmptyString.

Definition byte (c : ascii) : N := N_of_ascii c.

(** [utf8.RuneSelf]: bytes below it are single-byte runes. *)
Definition RuneSelf : N := 128.

Fixpoint rev (s : string) : string :=
  match s with
  | EmptyString => EmptyString
  | String c t => rev t ++ String c EmptyString
  end.

(** [s[n:]] *)
Fixpoint drop (n : nat) (s : string) : string :=
  match n, s with
  | O, _ => s
  | S _, EmptyString => EmptyString
  | S k, String _ t => drop k t
  end.

(** [n] copies of [s], one after the other. *)
Fixpoint repeat (s : string) (n : nat) : string :=
  match n with
  | O => EmptyString
  | S k => s ++ repeat s k
  end.

Fixpoint all (p : ascii -> bool) (s : string) : bool :=
  match s with
  | EmptyString => true
  | String c t => p c && all p t
  end.

(** The first and the last byte of a string. *)
Definition head (s : string) : option ascii :=
  match s with
  | EmptyString => None
  | String c _ => Some c
  end.

Definition last (s : string) : option ascii := head (rev s).

(** *** [strings.TrimSpace]

    The table [asciiSpace] of package [strings]. *)
Definition asciiSpace (c : ascii) : bool :=
  match byte c with
  | 9 | 10 | 11 | 12 | 13 | 32 => true
  | _ => false
  end%N.

Definition isASCII (c : ascii) : bool := (byte c <? RuneSelf)%N.

(** [unicode.IsSpace]: the Latin-1 cases and the table [White_Space]. *)
Definition IsSpace (r : N) : bool :=
  (if r <=? 255 then
     match r with
     | 9 | 10 | 11 | 12 | 13 | 32 | 133 | 160 => true
     | _ => false
     end
   else
     (r =? 5760) || ((8192 <=? r) && (r <=? 8202))
     || ((8232 <=? r) && (r <=? 8233)) || (r =? 8239) || (r =? 8287)
     || (r =? 12288))%N.

Definition RuneError : N := 65533.
Definition UTFMax : Z := 4.

Definition between (lo hi b : N) : bool := ((lo <=? b) && (b <=? hi))%N.

(** For a leading byte: the length of the encoding and the range that the
    second byte has to lie in ([first] and [acceptRanges] of package
    [utf8]); [None] for a byte that starts no encoding. *)
Definition first (b : N) : option (nat * N * N) :=
  (if between 194 223 b then Some (2%nat, 128, 191)
   else if b =? 224 then Some (3%nat, 160, 191)
   else if between 225 236 b then Some (3%nat, 128, 191)
   else if b =? 237 then Some (3%nat, 128, 159)
   else if between 238 239 b then Some (3%nat, 128, 191)
   else if b =? 240 then Some (4%nat, 144, 191)
   else if between 241 243 b then Some (4%nat, 128, 191)
   else if b =? 244 then Some (4%nat, 128, 143)
   else None)%N.

Definition cont (b : N) : bool := between 128 191 b.
Definition low6 (b : N) : N := N.land b 63.

(** [utf8.DecodeRuneInString]: the rune at the front of [s] and its width
    in bytes; [(RuneError, 1)] for an encoding that is not valid and
    [(RuneError, 0)] for the empty string. *)
Definition DecodeRuneInString (s : string) : N * nat :=
  match s with
  | EmptyString => (RuneError, 0)
  | String c0 t =>
    let b0 := byte c0 in
    if (b0 <? RuneSelf)%N then (b0, 1)
    else
      match first b0, t with
      | Some (2, lo, hi), String c1 _ =>
        let b1 := byte c1 in
        if between lo hi b1
        then (N.lor (N.shiftl (N.land b0 31) 6) (low6 b1), 2)
        else (RuneError, 1)
      | Some (3, lo, hi), String c1 (String c2 _) =>
        let b1 := byte c1 in
        let b2 := byte c2 in
        if between lo hi b1 && cont b2
        then (N.lor (N.shiftl (N.land b0 15) 12)
                (N.lor (N.shiftl (low6 b1) 6) (low6 b2)), 3)
        else (RuneError, 1)
      | Some (4, lo, hi), String c1 (String c2 (String c3 _)) =>
        let b1 := byte c1 in
        let b2 := byte c2 in
        let b3 := byte c3 in
        if between lo hi b1 && cont b2 && cont b3
        then (N.lor (N.shiftl (N.land b0 7) 18)
                (N.lor (N.shiftl (low6 b1) 12)
                   (N.lor (N.shiftl (low6 b2) 6) (low6 b3))), 4)
        else (RuneError, 1)
      | _, _ => (RuneError, 1)
      end
  end.

(** [s[i]], with 0 where the index is out of range (never read there). *)
Definition at_ (s : string) (i : Z) : N :=
  match get (Z.to_nat i) s with
  | Some c => byte c
  | None => 0%N
  end.

(** [s[i:j]] *)
Definition slice (s : string) (i j : Z) : string :=
  substring (Z.to_nat i) (Z.to_nat (j - i)) s.

(** [utf8.RuneStart]: not a continuation byte. *)
Definition RuneStart (b : N) : bool := negb (N.land b 192 =? 128)%N.

(** The backward scan of [utf8.DecodeLastRuneInString]:
    [for start--; start >= lim; start-- { if RuneStart(s[start]) { break } }]
    entered after the decrement. *)
Fixpoint scanStart (n : nat) (s : string) (start lim : Z) : Z :=
  match n with
  | O => start
  | S k =>
    if (start <? lim)%Z then start
    else if RuneStart (at_ s start) then start
    else scanStart k s (start - 1) lim
  end.

(** [utf8.DecodeLastRuneInString] *)
Definition DecodeLastRuneInString (s : string) : N * nat :=
  let end_ := Z.of_nat (String.length s) in
  if (end_ =? 0)%Z then (RuneError, 0)
  else
    let start := (end_ - 1)%Z in
    let r := at_ s start in
    if (r <? RuneSelf)%N then (r, 1)
    else
      let lim := Z.max 0 (end_ - UTFMax) in
      let start := scanStart 4 s (start - 1) lim in
      let start := Z.max 0 start in
      let '(r, size) := DecodeRuneInString (slice s start end_) in
      if (start + Z.of_nat size =? end_)%Z then (r, size) else (RuneError, 1).

(** [strings.TrimLeftFunc(s, unicode.IsSpace)] *)
Fixpoint TrimLeftFunc (n : nat) (s : string) : string :=
  match n, s with
  | O, _ => s
  | _, EmptyString => EmptyString
  | S k, _ =>
    let '(r, w) := DecodeRuneInString s in
    if IsSpace r then TrimLeftFunc k (drop w s) else s
  end.

(** [lastIndexFunc(s, unicode.IsSpace, false)]: the index of the start of
    the last rune that is no space, [-1] without one. *)
Fixpoint lastIndexFunc (n : nat) (s : string) (i : Z) : Z :=
  match n with
  | O => (-1)%Z
  | S k =>
    if (0 <? i)%Z then
      let '(r, size) := DecodeLastRuneInString (slice s 0 i) in
      let i := (i - Z.of_nat size)%Z in
      if IsSpace r then lastIndexFunc k s i else i
    else (-1)%Z
  end.

(** [strings.TrimRightFunc(s, unicode.IsSpace)] *)
Definition TrimRightFunc (s : string) : string :=
  let len := Z.of_nat (String.length s) in
  let i := lastIndexFunc (S (String.length s)) s len in
  let i :=
    if (0 <=? i)%Z && (RuneSelf <=? at_ s i)%N
    then (i + Z.of_nat (snd (DecodeRuneInString (slice s i len))))%Z
    else (i + 1)%Z in
  slice s 0 i.

Definition TrimFunc (s : string) : string :=
  TrimRightFunc (TrimLeftFunc (String.length s) s).

(** The second loop of [TrimSpace], from the end of [s[start:]]; the
    argument is that string read backwards. *)
Fixpoint trimStop (r : string) : string :=
  match r with
  | EmptyString => EmptyString
  | String c t =>
    if negb (isASCII c) then TrimRightFunc (rev r)
    else if asciiSpace c then trimStop t
    else rev r
  end.

(** [strings.TrimSpace]: the first loop, over the bytes from the front. *)
Fixpoint TrimSpace (s : string) : string :=
  match s with
  | EmptyString => EmptyString
  | String c t =>
    if negb (isASCII c) then TrimFunc s
    else if asciiSpace c then TrimSpace t
    else trimStop (rev s)
  end.

(** *** [strings.ToLower] *)

Definition isUpper (c : ascii) : bool := between 65 90 (byte c).

Definition lowerByte (c : ascii) : ascii :=
  if isUpper c then ascii_of_N (byte c + 32) else c.

Fixpoint mapBytes (f : ascii -> ascii) (s : string) : string :=
  match s with
  | EmptyString => EmptyString
  | String c t => String (f c) (mapBytes f t)
  end.

(** [strings.ToLower].  A string of ASCII bytes is mapped byte by byte.
    For any other string Go calls [Map(unicode.ToLower, s)], which goes
    through the case tables of package [unicode]; that function is the
    parameter [mapToLower]. *)
Definition ToLower (mapToLower : string -> string) (s : string) : string :=
  if all isASCII s then mapBytes lowerByte s else mapToLower s.

End GoString.

Import GoString.

(** ** The world outside the program *)

(** The value handed to [survey.AskOne]. *)
Record MultiSelect := mkMultiSelect {
  Message : string;
  Options : list string
}.

Record World := mkWorld {
  (** bytes of standard input that no read has taken yet; after them the
      stream is at its end *)
  stdin : string;
  (** whether standard input is a terminal ([term.IsTerminal]) *)
  stdin_tty : bool;
  (** bytes written to standard output and to standard error so far *)
  stdout : string;
  stderr : string;
  (** the prompts handed to the selection library so far, oldest first *)
  asked : list MultiSelect
}.

Definition set_stdin (s : string) (w : World) : World :=
  mkWorld s (stdin_tty w) (stdout w) (stderr w) (asked w).

Definition set_asked (l : list MultiSelect) (w : World) : World :=
  mkWorld (stdin w) (stdin_tty w) (stdout w) (stderr w) l.

Inductive File := Stdout | Stderr.

(** [fmt.Fprint(f, s)] for a string [s]. *)
Definition Fprint (f : File) (s : string) (w : World) : World :=
  match f with
  | Stdout => mkWorld (stdin w) (stdin_tty w) (stdout w ++ s) (stderr w) (asked w)
  | Stderr => mkWorld (stdin w) (stdin_tty w) (stdout w) (stderr w ++ s) (asked w)
  end.

(** [fmt.Println()] with no operand: a line feed on standard output. *)
Definition Println (w : World) : World := Fprint Stdout LF w.

(** Go [error] values met here. *)
Inductive error := EOF | ENOTTY | AskFailed.

(** *** [bufio.Reader.ReadString]

    The bytes up to and including the first [delim]; at the end of the
    stream the bytes read so far together with [EOF]. *)
Fixpoint readString (delim : ascii) (s : string) : string * option error * string :=
  match s with
  | EmptyString => (EmptyString, Some EOF, EmptyString)
  | String c t =>
    if Ascii.eqb c delim then (String c EmptyString, None, t)
    else
      let '(l, e, r) := readString delim t in
      (String c l, e, r)
  end.

(** [r.ReadString(delim)] for the reader [r := bufio.NewReader(os.Stdin)]
    of one prompt call. *)
Definition ReadString (delim : ascii) (w : World) : string * option error * World :=
  let '(l, e, r) := readString delim (stdin w) in
  (l, e, set_stdin r w).

(** *** [term.ReadPassword] (package golang.org/x/term, not Windows) *)

(** [ret[:len(ret)-1]] when [ret] has a byte, [ret] otherwise. *)
Definition dropLast (ret : string) : string :=
  match rev ret with
  | EmptyString => ret
  | String _ t => rev t
  end.

(** [readPasswordLine]: bytes are read one at a time; ['\b'] takes the
    last byte back, ['\r'] is passed over, ['\n'] ends the line and is
    not part of it. *)
Fixpoint readPasswordLine (input ret : string) : string * option error * string :=
  match input with
  | EmptyString =>
    match ret with
    | EmptyString => (ret, Some EOF, EmptyString)
    | _ => (ret, None, EmptyString)
    end
  | String c t =>
    match byte c with
    | 8 => readPasswordLine t (dropLast ret)
    | 10 => (ret, None, t)
    | 13 => readPasswordLine t ret
    | _ => readPasswordLine t (ret ++ String c EmptyString)
    end%N
  end.

(** [term.ReadPassword(int(syscall.Stdin))]: on a descriptor that is no
    terminal the call to read the terminal state fails and nothing is
    read. *)
Definition ReadPassword (w : World) : string * option error * World :=
  if stdin_tty w then
    let '(b, e, r) := readPasswordLine (stdin w) EmptyString in
    (b, e, set_stdin r w)
  else (EmptyString, Some ENOTTY, w).

(** ** Outcomes *)

(** The error kinds that the specification of the prompts names.  The
    program has no such values. *)
Inductive PromptError := InputExhausted | NotATerminal | InvalidOptions.

(** What is known of a call after a bounded number of loop iterations:
    it has returned, it has failed, or it is still in its loop.  The
    functions of the program have the result types [string], [bool] and
    [[]string]; none has an [error] result, panics or exits, so the
    embedding builds no [Failed] (lemmas [StringPrompt_not_failed] and
    the like). *)
Inductive Outcome (A : Type) :=
| Returned (a : A) (w : World)
| Failed (e : PromptError) (w : World)
| Pending (w : World).

Arguments Returned {A} a w.
Arguments Failed {A} e w.
Arguments Pending {A} w.



(** The world at the point that the outcome describes. *)
Definition world_of {A} (o : Outcome A) : World :=
  match o with
  | Returned _ w | Failed _ w | Pending w => w
  end.

(** ** The prompts *)

(** [StringPrompt]: the loop, run for at most [n] iterations from the
    world [w] (which holds the reader [r]). *)
Fixpoint StringPrompt (n : nat) (label : string) (w : World) : Outcome string :=
  match n with
  | O => Pending w
  | S k =>
    let w := Fprint Stderr (label ++ " ") w in
    let '(s, _, w) := ReadString (ascii_of_N 10) w in
    if negb (s =? "") then Returned (TrimSpace s) w
    else StringPrompt k label w
  end.

(** [PasswordPrompt] *)
Fixpoint PasswordPrompt (n : nat) (label : string) (w : World) : Outcome string :=
  match n with
  | O => Pending w
  | S k =>
    let w := Fprint Stderr (label ++ " ") w in
    let '(b, _, w) := ReadPassword w in
    let s := b in
    if negb (s =? "") then
      let w := Println w in
      Returned s w
    else PasswordPrompt k label w
  end.

Section YesNo.

(** [strings.Map(unicode.ToLower, s)], see [ToLower]. *)
Variable mapToLower : string -> string.

Definition choicesOf (def : bool) : string :=
  let choices := "Y/n" in
  if negb def then "y/N" else choices.

(** [fmt.Fprintf(os.Stderr, "%s (%s) ", label, choices)] *)
Definition hint (label choices : string) : string :=
  label ++ " (" ++ choices ++ ") ".

(** The loop of [YesNoPrompt]. *)
Fixpoint YesNoLoop (n : nat) (label choices : string) (def : bool) (w : World)
  : Outcome bool :=
  match n with
  | O => Pending w
  | S k =>
    let w := Fprint Stderr (hint label choices) w in
    let '(s, _, w) := ReadString (ascii_of_N 10) w in
    let s := TrimSpace s in
    if s =? "" then Returned def w
    else
      let s := ToLower mapToLower s in
      if (s =? "y") || (s =? "yes") then Returned true w
      else if (s =? "n") || (s =? "no") then Returned false w
      else YesNoLoop k label choices def w
  end.

Definition YesNoPrompt (n : nat) (label : string) (def : bool) (w : World)
  : Outcome bool :=
  YesNoLoop n label (choicesOf def) def w.

End YesNo.

(** A Go slice of strings: [nil], or a slice with its elements. *)
Inductive slice_string := Nil | Slice (l : list string).

Definition elems (s : slice_string) : list string :=
  match s with
  | Nil => []
  | Slice l => l
  end.

Definition is_nil (s : slice_string) : bool :=
  match s with
  | Nil => true
  | Slice _ => false
  end.

(** [s = append(s, x)] for each [x] of [xs] in turn. *)
Fixpoint appendAll (s : slice_string) (xs : list string) : slice_string :=
  match xs with
  | [] => s
  | x :: t => appendAll (Slice (elems s ++ [x])) t
  end.

(** What the selection library does with a prompt: it fails, or the user
    confirms a list of chosen options. *)
Inductive Answer := AskError | Chosen (l : list string).

Section CheckboxesSection.

(** The interactive list of package [survey]: its rendering and key
    handling, on the streams of the world. *)
Variable collaborator : MultiSelect -> World -> Answer * World.

(** [survey.AskOne(prompt, &res)]: on failure the error is returned and
    [res] is left alone; otherwise the chosen options are appended to
    [res] one by one.  The call is noted in [asked]. *)
Definition AskOne (prompt : MultiSelect) (res : slice_string) (w : World)
  : slice_string * option error * World :=
  let '(a, w') := collaborator prompt w in
  let w' := set_asked (asked w ++ [prompt]) w' in
  match a with
  | AskError => (res, Some AskFailed, w')
  | Chosen l => (appendAll res l, None, w')
  end.

Definition Checkboxes (label : string) (opts : list string) (w : World)
  : Outcome slice_string :=
  let res := Slice [] in
  let prompt := mkMultiSelect label opts in
  let '(res, _, w) := AskOne prompt res w in
  Returned res w.

End CheckboxesSection.

(** ** Worlds and collaborators to run the prompts on *)

(** Standard input is a pipe or a file holding [s]. *)
Definition piped (s : string) : World := mkWorld s false "" "" [].

(** Standard input is a terminal at which [s] is typed. *)
Definition terminal (s : string) : World := mkWorld s true "" "" [].

(** A stand-in for the interactive list: it needs a terminal; there it
    takes one line of input and selects the options whose first byte is
    in that line, in the order of the options. *)
Definition keyed (line : string) (o : string) : bool :=
  match o with
  | EmptyString => false
  | String c _ => existsb (Ascii.eqb c) (list_ascii_of_string line)
  end.

Definition listDouble (p : MultiSelect) (w : World) : Answer * World :=
  if stdin_tty w then
    let '(l, _, r) := readString (ascii_of_N 10) (stdin w) in
    (Chosen (filter (keyed l) (Options p)), Fprint Stdout (Message p) (set_stdin r w))
  else (AskError, w).

(** ** The programs

    Each prompt comes with a [main] that calls it and reports the result
    on standard output. *)

(** What follows a call: [k] runs on the value and the world of a call
    that has returned. *)
Definition andThen {A B} (o : Outcome A) (k : A -> World -> Outcome B)
  : Outcome B :=
  match o with
  | Returned a w => k a w
  | Failed e w => Failed e w
  | Pending w => Pending w
  end.

(** [main] of the text prompt: [fmt.Printf("Hello, %s!\n", name)]. *)
Definition main_text (n : nat) (w : World) : Outcome unit :=
  andThen (StringPrompt n "What is your name?" w) (fun name w =>
    Returned tt (Fprint Stdout ("Hello, " ++ name ++ "!" ++ LF) w)).

(** The double quote and the backslash. *)
Definition DQ : ascii := ascii_of_N 34.
Definition BSL : ascii := ascii_of_N 92.

(** [lowerhex[n]] of package [strconv], for [n] below 16. *)
Definition lowerhex (n : N) : ascii :=
  if (n <? 10)%N then ascii_of_N (48 + n) else ascii_of_N (87 + n).

(** [appendEscapedRune] of package [strconv] for a byte below
    [utf8.RuneSelf], as [strconv.Quote] calls it: quote and backslash get
    a backslash, printable bytes stand for themselves, the rest is
    escaped. *)
Definition escapeByte (c : ascii) : string :=
  let b := byte c in
  if (b =? 34)%N || (b =? 92)%N then String BSL (String c "")
  else if between 32 126 b then String c ""
  else
    match b with
    | 7 => String BSL "a"
    | 8 => String BSL "b"
    | 12 => String BSL "f"
    | 10 => String BSL "n"
    | 13 => String BSL "r"
    | 9 => String BSL "t"
    | 11 => String BSL "v"
    | _ => String BSL (String "x" (String (lowerhex (N.shiftr b 4))
                                     (String (lowerhex (N.land b 15)) "")))
    end%N.

Fixpoint escapeBytes (s : string) : string :=
  match s with
  | EmptyString => EmptyString
  | String c t => escapeByte c ++ escapeBytes t
  end.

(** [strconv.Quote], which the verb [%q] of [fmt] prints a string with.
    A string with a byte from [utf8.RuneSelf] on is quoted with the
    tables of package [unicode]; that case is the parameter
    [quoteUnicode]. *)
Definition Quote (quoteUnicode : string -> string) (s : string) : string :=
  if all isASCII s then String DQ (escapeBytes s ++ String DQ "")
  else quoteUnicode s.

(** [main] of the password prompt:
    [fmt.Printf("Oh, I see! Your password is %q\n", password)]. *)
Definition main_password (quoteUnicode : string -> string) (n : nat)
    (w : World) : Outcome unit :=
  andThen (PasswordPrompt n "What is your password?" w) (fun password w =>
    Returned tt
      (Fprint Stdout
         ("Oh, I see! Your password is " ++ Quote quoteUnicode password ++ LF)
         w)).

(** [main] of the yes/no prompt. *)
Definition main_yesno (mapToLower : string -> string) (n : nat) (w : World)
  : Outcome unit :=
  andThen (YesNoPrompt mapToLower n "Dev.to is awesome!" true w) (fun ok w =>
    if ok then Returned tt (Fprint Stdout ("Agree!" ++ LF) w)
    else Returned tt (Fprint Stdout ("Huh?" ++ LF) w)).

(** [strings.Join] *)
Fixpoint Join (elems : list string) (sep : string) : string :=
  match elems with
  | [] => ""
  | [x] => x
  | x :: t => x ++ sep ++ Join t sep
  end.

(** The options of [main] of the check boxes. *)
Definition languages : list string :=
  ["C"; "Python"; "Java"; "C++"; "C#"; "Visual Basic"; "JavaScript"; "PHP";
   "Assembly Language"; "SQL"; "Groovy"; "Classic Visual Basic"; "Fortran";
   "R"; "Ruby"; "Swift"; "MATLAB"; "Go"; "Prolog"; "Perl"].

(** [main] of the check boxes; [fmt.Println] with two operands puts a
    space between them and a line feed after them. *)
Definition main_checkboxes
    (collaborator : MultiSelect -> World -> Answer * World) (w : World)
  : Outcome unit :=
  andThen
    (Checkboxes collaborator
       "Which are your favourite programming languages?" languages w)
    (fun answers w =>
       let s := Join (elems answers) ", " in
       Returned tt (Fprint Stdout ("Oh, I see! You like" ++ " " ++ s ++ LF) w)).

(** [main] of the terminal check. *)
Definition main_interactive (w : World) : Outcome unit :=
  if stdin_tty w then
    Returned tt
      (Fprint Stdout
         ("Terminal is interactive! You're good to use prompts!" ++ LF) w)
  else
    Returned tt
      (Fprint Stdout
         ("Terminal is not interactive! Consider using flags or environment variables!"
          ++ LF) w).

(** ** Classes of bytes and strings used in the statements *)

Definition NBSP : string :=
  String (ascii_of_N 194) (String (ascii_of_N 160) EmptyString).

(** Bytes that are neither a space of the table [asciiSpace] nor part of
    a longer encoding. *)
Definition visible (c : ascii) : bool := isASCII c && negb (asciiSpace c).

(** Spaces of the table other than the line feed. *)
Definition blank (c : ascii) : bool :=
  asciiSpace c && negb (Ascii.eqb c (ascii_of_N 10)).

Definition notLF (c : ascii) : bool := negb (Ascii.eqb c (ascii_of_N 10)).

(** Bytes that [readPasswordLine] takes into the line: all but backspace,
    line feed and carriage return. *)
Definition plain (c : ascii) : bool :=
  match byte c with
  | 8 | 10 | 13 => false
  | _ => true
  end%N.

(** [s] has a first and a last byte and both are [visible]. *)
Definition edges (s : string) : bool :=
  match head s, last s with
  | Some a, Some b => visible a && visible b
  | _, _ => false
  end.

(** The lines of [lines], each ended by a line feed, one after the
    other. *)
Fixpoint unlines (lines : list string) : string :=
  match lines with
  | [] => ""
  | l :: t => l ++ LF ++ unlines t
  end.

(** A line that the yes/no prompt does not take for an answer: trimmed it
    is not empty, and in lower case it is none of the four words. *)
Definition unrecognised (mapToLower : string -> string) (body : string)
  : bool :=
  let t := TrimSpace (body ++ LF) in
  let l := ToLower mapToLower t in
  negb (t =? "") && negb ((l =? "y") || (l =? "yes"))
  && negb ((l =? "n") || (l =? "no")).

(** Bytes that [strconv.Quote] leaves as they are. *)
Definition literal (c : ascii) : bool :=
  between 32 126 (byte c) && negb (byte c =? 34)%N && negb (byte c =? 92)%N.

(** Case analysis on the 256 values of a byte. *)
Ltac each_byte c := destruct c as [[] [] [] [] [] [] [] []].

(** ** Runs on concrete input *)

Example TrimSpace_unicode :
  TrimSpace (NBSP ++ "  he llo " ++ NBSP ++ " " ++ LF) = "he llo".
Proof. reflexivity. Qed.

Example TrimSpace_invalid_utf8 :
  TrimSpace (" " ++ String (ascii_of_N 226) (String (ascii_of_N 128) " "))
  = String (ascii_of_N 226) (String (ascii_of_N 128) "").
Proof. reflexivity. Qed.

Example StringPrompt_hello :
  StringPrompt 3 "Name?" (piped ("  hello  " ++ LF))
  = Returned "hello" (mkWorld "" false "" "Name? " []).
Proof. reflexivity. Qed.

Example YesNoPrompt_maybe :
  YesNoPrompt (fun s => s) 3 "ok?" true (piped ("maybe" ++ LF ++ " YES " ++ LF))
  = Returned true (mkWorld "" false "" "ok? (Y/n) ok? (Y/n) " []).
Proof. reflexivity. Qed.

Example PasswordPrompt_retry :
  PasswordPrompt 3 "pw?" (terminal (LF ++ "  " ++ LF ++ "x"))
  = Returned "  " (mkWorld "x" true LF "pw? pw? " []).
Proof. reflexivity. Qed.

Example Checkboxes_double :
  Checkboxes listDouble "which?" ["C"; "Go"; "Perl"] (terminal ("PC" ++ LF))
  = Returned (Slice ["C"; "Perl"])
      (mkWorld "" true "which?" "" [mkMultiSelect "which?" ["C"; "Go"; "Perl"]]).
Proof. reflexivity. Qed.

(** ** Lemmas on byte strings *)

Section StringLemmas.

Lemma append_nil_r (s : string) : s ++ "" = s.
Proof. induction s as [|c s IH]; simpl; [reflexivity | now rewrite IH]. Qed.

Lemma append_assoc (a b c : string) : (a ++ b) ++ c = a ++ (b ++ c).
Proof. induction a as [|x a IH]; simpl; [reflexivity | now rewrite IH]. Qed.

Lemma rev_app (a b : string) : rev (a ++ b) = rev b ++ rev a.
Proof.
  induction a as [|x a IH]; simpl.
  - now rewrite append_nil_r.
  - now rewrite IH, append_assoc.
Qed.

Lemma rev_involutive (s : string) : rev (rev s) = s.
Proof.
  induction s as [|c s IH]; simpl; [reflexivity|].
  rewrite rev_app, IH. reflexivity.
Qed.

Lemma all_app (p : ascii -> bool) (a b : string) :
  all p (a ++ b) = all p a && all p b.
Proof.
  induction a as [|x a IH]; simpl; [reflexivity|].
  now rewrite IH, andb_assoc.
Qed.

Lemma all_rev (p : ascii -> bool) (s : string) : all p (rev s) = all p s.
Proof.
  induction s as [|c s IH]; simpl; [reflexivity|].
  rewrite all_app, IH. simpl. rewrite andb_true_r. apply andb_comm.
Qed.

Lemma append_nonempty (a : string) (c : ascii) (b : string) :
  (a ++ String c b =? "") = false.
Proof. destruct a; reflexivity. Qed.

End StringLemmas.

Section TrimLemmas.

Lemma asciiSpace_isASCII (c : ascii) : asciiSpace c = true -> isASCII c = true.
Proof. each_byte c; vm_compute; congruence. Qed.

Lemma blank_asciiSpace (s : string) : all blank s = true -> all asciiSpace s = true.
Proof.
  induction s as [|c s IH]; simpl; [reflexivity|].
  unfold blank at 1. intros H.
  apply andb_true_iff in H as [H1 H2]. apply andb_true_iff in H1 as [H1 _].
  now rewrite H1, IH.
Qed.

Lemma blank_notLF (s : string) : all blank s = true -> all notLF s = true.
Proof.
  induction s as [|c s IH]; simpl; [reflexivity|].
  unfold blank at 1, notLF at 1. intros H.
  apply andb_true_iff in H as [H1 H2]. apply andb_true_iff in H1 as [_ H1].
  now rewrite H1, IH.
Qed.

Lemma trimStop_spaces (ws r : string) :
  all asciiSpace ws = true -> trimStop (ws ++ r) = trimStop r.
Proof.
  induction ws as [|c ws IH]; simpl; [reflexivity|].
  intros H. apply andb_true_iff in H as [Hc Hws].
  now rewrite (asciiSpace_isASCII c Hc), Hc, IH.
Qed.

Lemma trimStop_visible (c : ascii) (r : string) :
  visible c = true -> trimStop (String c r) = rev (String c r).
Proof.
  unfold visible. intros H. apply andb_true_iff in H as [H1 H2].
  apply negb_true_iff in H2. cbn [trimStop]. now rewrite H1, H2.
Qed.

Lemma TrimSpace_spaces (ws s : string) :
  all asciiSpace ws = true -> TrimSpace (ws ++ s) = TrimSpace s.
Proof.
  induction ws as [|c ws IH]; simpl; [reflexivity|].
  intros H. apply andb_true_iff in H as [Hc Hws].
  now rewrite (asciiSpace_isASCII c Hc), Hc, IH.
Qed.

(** A string of spaces of the table is trimmed to nothing. *)
Lemma TrimSpace_blank (ws : string) :
  all asciiSpace ws = true -> TrimSpace ws = "".
Proof.
  intros H. rewrite <- (append_nil_r ws). now rewrite TrimSpace_spaces.
Qed.

(** Spaces around a string with visible first and last byte are cut off,
    the string itself is kept. *)
Lemma TrimSpace_padded (lead core trail : string) :
  all asciiSpace lead = true -> all asciiSpace trail = true ->
  edges core = true ->
  TrimSpace (lead ++ core ++ trail) = core.
Proof.
  intros Hl Ht He. rewrite (TrimSpace_spaces _ _ Hl).
  unfold edges, last in He.
  destruct core as [|a core]; [discriminate|]. simpl head in He.
  destruct (rev (String a core)) as [|b r] eqn:Er; [discriminate|].
  simpl head in He. apply andb_true_iff in He as [Ha Hb].
  change (String a core ++ trail) with (String a (core ++ trail)).
  cbn [TrimSpace].
  unfold visible in Ha. apply andb_true_iff in Ha as [Ha1 Ha2].
  apply negb_true_iff in Ha2. rewrite Ha1, Ha2. cbn [negb].
  change (String a (core ++ trail)) with (String a core ++ trail).
  rewrite rev_app, trimStop_spaces by (now rewrite all_rev).
  rewrite Er, trimStop_visible by exact Hb.
  now rewrite <- Er, rev_involutive.
Qed.

Lemma plain_notLF (s : string) : all plain s = true -> all notLF s = true.
Proof.
  induction s as [|c s IH]; cbn [all]; [reflexivity|].
  intros H. apply andb_true_iff in H as [Hc Hs]. rewrite (IH Hs), andb_true_r.
  revert Hc. each_byte c; vm_compute; congruence.
Qed.

Lemma readString_delim (d : ascii) (x rest : string) :
  all (fun c => negb (Ascii.eqb c d)) x = true ->
  readString d (x ++ String d rest) = (x ++ String d "", None, rest).
Proof.
  induction x as [|c x IH]; cbn [all append readString]; intros H.
  - now rewrite Ascii.eqb_refl.
  - apply andb_true_iff in H as [Hc Hx]. apply negb_true_iff in Hc.
    now rewrite Hc, (IH Hx).
Qed.

(** A line without a line feed inside is read up to and including the
    line feed that ends it. *)
Lemma readString_line (x rest : string) :
  all notLF x = true ->
  readString (ascii_of_N 10) (x ++ LF ++ rest) = (x ++ LF, None, rest).
Proof. intros H. exact (readString_delim (ascii_of_N 10) x rest H). Qed.

End TrimLemmas.

(** ** One iteration of each loop *)

Section Steps.

Variable mapToLower : string -> string.

Lemma StringPrompt_line (n : nat) (label body rest : string) (tty : bool)
    (out err : string) (ask : list MultiSelect) :
  all notLF body = true ->
  StringPrompt (S n) label (mkWorld (body ++ LF ++ rest) tty out err ask)
  = Returned (TrimSpace (body ++ LF))
      (mkWorld rest tty out (err ++ (label ++ " ")) ask).
Proof.
  intros H. cbn [StringPrompt]. unfold ReadString, Fprint, set_stdin.
  cbn [stdin stdin_tty stdout stderr asked].
  rewrite (readString_line body rest H).
  unfold LF at 1. now rewrite append_nonempty.
Qed.

Lemma StringPrompt_eof (n : nat) (label : string) (tty : bool)
    (out err : string) (ask : list MultiSelect) :
  StringPrompt n label (mkWorld "" tty out err ask)
  = Pending (mkWorld "" tty out (err ++ repeat (label ++ " ") n) ask).
Proof.
  revert err. induction n as [|n IH]; intros err.
  - cbn [StringPrompt repeat]. now rewrite append_nil_r.
  - cbn [StringPrompt]. unfold ReadString, Fprint, set_stdin.
    cbn [stdin stdin_tty stdout stderr asked readString String.eqb negb].
    rewrite IH. cbn [repeat]. now rewrite append_assoc.
Qed.

Lemma YesNoLoop_line (n : nat) (label choices : string) (def : bool)
    (body rest : string) (tty : bool) (out err : string)
    (ask : list MultiSelect) :
  all notLF body = true ->
  YesNoLoop mapToLower (S n) label choices def
    (mkWorld (body ++ LF ++ rest) tty out err ask)
  = let w1 := mkWorld rest tty out (err ++ hint label choices) ask in
    let t := TrimSpace (body ++ LF) in
    if t =? "" then Returned def w1
    else
      let l := ToLower mapToLower t in
      if (l =? "y") || (l =? "yes") then Returned true w1
      else if (l =? "n") || (l =? "no") then Returned false w1
      else YesNoLoop mapToLower n label choices def w1.
Proof.
  intros H. cbn [YesNoLoop]. unfold ReadString, Fprint, set_stdin.
  cbn [stdin stdin_tty stdout stderr asked].
  now rewrite (readString_line body rest H).
Qed.

Lemma YesNoLoop_eof (n : nat) (label choices : string) (def tty : bool)
    (out err : string) (ask : list MultiSelect) :
  YesNoLoop mapToLower (S n) label choices def (mkWorld "" tty out err ask)
  = Returned def (mkWorld "" tty out (err ++ hint label choices) ask).
Proof. reflexivity. Qed.

End Steps.

(** ** No call fails *)

Section NeverFailed.




End NeverFailed.

(** ** Input that ends: empty lines and end of stream *)

Section Exhausted.




End Exhausted.

(** ** The yes/no prompt *)

Section Confirm.

Variable mapToLower : string -> string.

(** C2.  A line [body] ends with a line feed.  With [t] the line after
    [TrimSpace]: an empty [t], so also the empty line, returns the default;
    [t] in lower case equal to ["y"] or ["yes"] returns [true], equal to
    ["n"] or ["no"] returns [false]; every other line leads to the next
    iteration, which writes the hint and reads again. *)
Theorem C2_YesNoPrompt_cases (n : nat) (label : string) (def : bool)
    (body rest : string) (tty : bool) (out err : string)
    (ask : list MultiSelect) :
  all notLF body = true ->
  let w := mkWorld (body ++ LF ++ rest) tty out err ask in
  let w1 := mkWorld rest tty out (err ++ hint label (choicesOf def)) ask in
  let t := TrimSpace (body ++ LF) in
  let l := ToLower mapToLower t in
  (body = "" -> YesNoPrompt mapToLower (S n) label def w = Returned def w1) /\
  (t = "" -> YesNoPrompt mapToLower (S n) label def w = Returned def w1) /\
  (l = "y" \/ l = "yes" ->
   YesNoPrompt mapToLower (S n) label def w = Returned true w1) /\
  (l = "n" \/ l = "no" ->
   YesNoPrompt mapToLower (S n) label def w = Returned false w1) /\
  (t <> "" -> l <> "y" -> l <> "yes" -> l <> "n" -> l <> "no" ->
   YesNoPrompt mapToLower (S n) label def w
   = YesNoPrompt mapToLower n label def w1).
Proof.
  intros H w w1 t l.
  assert (E : YesNoPrompt mapToLower (S n) label def w
              = if t =? "" then Returned def w1
                else if (l =? "y") || (l =? "yes") then Returned true w1
                else if (l =? "n") || (l =? "no") then Returned false w1
                else YesNoPrompt mapToLower n label def w1)
    by (unfold YesNoPrompt; subst w; now rewrite YesNoLoop_line).
  assert (L0 : t = "" -> l = "") by (intros T; subst l; now rewrite T).
  repeat split.
  - intros B. rewrite E. subst t. now rewrite B.
  - intros T. rewrite E. now rewrite T.
  - intros Y. rewrite E.
    destruct (String.eqb_spec t "") as [T|T].
    + apply L0 in T. destruct Y as [Y|Y]; rewrite Y in T; discriminate.
    + destruct Y as [Y|Y]; rewrite Y; reflexivity.
  - intros N. rewrite E.
    destruct (String.eqb_spec t "") as [T|T].
    + apply L0 in T. destruct N as [N|N]; rewrite N in T; discriminate.
    + destruct N as [N|N]; rewrite N; reflexivity.
  - intros T Y1 Y2 N1 N2. rewrite E.
    apply String.eqb_neq in T, Y1, Y2, N1, N2.
    now rewrite T, Y1, Y2, N1, N2.
Qed.

(** C9.  Spaces before and after the answer do not matter: the padded
    line is answered as the line without the padding is.  A line of
    spaces alone returns the default, and ["  YES  "] returns [true]. *)
Theorem C9_YesNoPrompt_trims (n : nat) (label : string) (def : bool)
    (lead core trail rest : string) (tty : bool) (out err : string)
    (ask : list MultiSelect) :
  all blank lead = true -> all blank trail = true ->
  edges core = true -> all notLF core = true ->
  let w1 := mkWorld rest tty out (err ++ hint label (choicesOf def)) ask in
  YesNoPrompt mapToLower (S n) label def
    (mkWorld (lead ++ core ++ trail ++ LF ++ rest) tty out err ask)
  = YesNoPrompt mapToLower (S n) label def
      (mkWorld (core ++ LF ++ rest) tty out err ask) /\
  YesNoPrompt mapToLower (S n) label def
    (mkWorld (lead ++ LF ++ rest) tty out err ask)
  = Returned def w1 /\
  YesNoPrompt mapToLower (S n) label def
    (mkWorld ("  YES  " ++ LF ++ rest) tty out err ask)
  = Returned true w1.
Proof.
  intros Hl Ht He Hc w1. unfold YesNoPrompt. split; [|split].
  - replace (lead ++ core ++ trail ++ LF ++ rest)
      with ((lead ++ core ++ trail) ++ LF ++ rest)
      by (now rewrite !append_assoc).
    rewrite !YesNoLoop_line; try assumption.
    + replace ((lead ++ core ++ trail) ++ LF)
        with (lead ++ core ++ (trail ++ LF))
        by (now rewrite !append_assoc).
      rewrite TrimSpace_padded; try assumption.
      * replace (core ++ LF) with ("" ++ core ++ LF) by reflexivity.
        now rewrite TrimSpace_padded.
      * now apply blank_asciiSpace.
      * rewrite all_app. now rewrite (blank_asciiSpace _ Ht).
    + rewrite !all_app. now rewrite (blank_notLF _ Hl), Hc, (blank_notLF _ Ht).
  - rewrite YesNoLoop_line by (now apply blank_notLF).
    cbv zeta. rewrite TrimSpace_blank; [reflexivity|].
    rewrite all_app. now rewrite (blank_asciiSpace _ Hl).
  - now rewrite YesNoLoop_line.
Qed.

End Confirm.

Lemma C2_YesNoPrompt_cases_witness :
  all notLF "Yes" = true /\
  YesNoPrompt (fun s => s) 1 "Sure?" false
    (mkWorld ("Yes" ++ LF ++ "rest") false "" "" [])
  = Returned true (mkWorld "rest" false "" "Sure? (y/N) " []).
Proof.
  split; [reflexivity|].
  apply (C2_YesNoPrompt_cases (fun s => s) 0 "Sure?" false "Yes" "rest" false "" "" []
           eq_refl).
  right. reflexivity.
Defined.

Lemma C9_YesNoPrompt_trims_witness :
  all blank "  " = true /\ all blank (String (ascii_of_N 9) " ") = true /\
  edges "no" = true /\ all notLF "no" = true /\
  YesNoPrompt (fun s => s) 1 "Sure?" true
    (mkWorld ("  " ++ "no" ++ String (ascii_of_N 9) " " ++ LF ++ "") false "" "" [])
  = YesNoPrompt (fun s => s) 1 "Sure?" true
      (mkWorld ("no" ++ LF ++ "") false "" "" []).
Proof.
  do 4 (split; [reflexivity|]).
  apply (C9_YesNoPrompt_trims (fun s => s) 0 "Sure?" true "  " "no"
           (String (ascii_of_N 9) " ") "" false "" "" []);
    reflexivity.
Defined.

(** ** The text prompt *)

Section Text.

(** C3, what the code does.  When the first line is empty the text prompt
    does not go round again: the line as read is the line feed, which is
    not the empty string, so the loop ends and the trimmed line, the
    empty string, is returned while the next line is still unread. *)
Theorem C3_StringPrompt_returns_empty (n : nat) (label body rest : string)
    (tty : bool) (out err : string) (ask : list MultiSelect) :
  StringPrompt (S n) label (mkWorld (LF ++ body ++ LF ++ rest) tty out err ask)
  = Returned "" (mkWorld (body ++ LF ++ rest) tty out (err ++ (label ++ " ")) ask).
Proof.
  change (LF ++ body ++ LF ++ rest) with ("" ++ LF ++ (body ++ LF ++ rest)).
  now rewrite StringPrompt_line.
Qed.

(** C6.  A line with spaces around a text that begins and ends with a
    visible byte is returned without those spaces and otherwise as it is;
    so ["abc"] is returned for the line ["abc"] and ["hello"] for
    ["  hello  "], after one cycle. *)
Theorem C6_StringPrompt_trims (n : nat) (label : string)
    (lead core trail rest : string) (tty : bool) (out err : string)
    (ask : list MultiSelect) :
  all blank lead = true -> all blank trail = true ->
  edges core = true -> all notLF core = true ->
  let w1 := mkWorld rest tty out (err ++ (label ++ " ")) ask in
  StringPrompt (S n) label
    (mkWorld (lead ++ core ++ trail ++ LF ++ rest) tty out err ask)
  = Returned core w1 /\
  StringPrompt (S n) label (mkWorld ("abc" ++ LF ++ rest) tty out err ask)
  = Returned "abc" w1 /\
  StringPrompt (S n) label (mkWorld ("  hello  " ++ LF ++ rest) tty out err ask)
  = Returned "hello" w1.
Proof.
  intros Hl Ht He Hc w1. split; [|split].
  - replace (lead ++ core ++ trail ++ LF ++ rest)
      with ((lead ++ core ++ trail) ++ LF ++ rest)
      by (now rewrite !append_assoc).
    rewrite StringPrompt_line.
    + replace ((lead ++ core ++ trail) ++ LF)
        with (lead ++ core ++ (trail ++ LF))
        by (now rewrite !append_assoc).
      rewrite TrimSpace_padded; try assumption; try reflexivity.
      * now apply blank_asciiSpace.
      * rewrite all_app. now rewrite (blank_asciiSpace _ Ht).
    + rewrite !all_app. now rewrite (blank_notLF _ Hl), Hc, (blank_notLF _ Ht).
  - now rewrite StringPrompt_line.
  - now rewrite StringPrompt_line.
Qed.

Lemma C6_StringPrompt_trims_witness :
  all blank " " = true /\ all blank "   " = true /\
  edges "a  b c" = true /\ all notLF "a  b c" = true /\
  StringPrompt 1 "Name?"
    (mkWorld (" " ++ "a  b c" ++ "   " ++ LF ++ "next") false "" "" [])
  = Returned "a  b c" (mkWorld "next" false "" ("" ++ ("Name?" ++ " ")) []).
Proof.
  do 4 (split; [reflexivity|]).
  apply (C6_StringPrompt_trims 0 "Name?" " " "a  b c" "   " "next" false "" "" []);
    reflexivity.
Defined.

(** The text prompt writes nothing to standard output. *)
Lemma StringPrompt_stdout (n : nat) (label : string) (w : World) :
  stdout (world_of (StringPrompt n label w)) = stdout w.
Proof.
  revert w. induction n as [|n IH]; intros w; [reflexivity|].
  cbn [StringPrompt]. unfold ReadString.
  destruct (readString _ _) as [[s e] r].
  destruct (negb (s =? "")); [reflexivity|].
  rewrite IH. reflexivity.
Qed.

End Text.

(** The yes/no prompt writes nothing to standard output. *)
Lemma YesNoPrompt_stdout (f : string -> string) (n : nat) (label : string)
    (def : bool) (w : World) :
  stdout (world_of (YesNoPrompt f n label def w)) = stdout w.
Proof.
  unfold YesNoPrompt. generalize (choicesOf def). intros choices.
  revert w. induction n as [|n IH]; intros w; [reflexivity|].
  cbn [YesNoLoop]. unfold ReadString.
  destruct (readString _ _) as [[s e] r].
  destruct (TrimSpace s =? ""); [reflexivity|].
  destruct (_ || _); [reflexivity|].
  destruct (_ || _); [reflexivity|].
  rewrite IH. reflexivity.
Qed.

(** ** The password prompt *)

Section Password.

Lemma readPasswordLine_plain_byte (c : ascii) (t ret : string) :
  plain c = true ->
  readPasswordLine (String c t) ret
  = readPasswordLine t (ret ++ String c EmptyString).
Proof. each_byte c; intros H; try reflexivity; discriminate H. Qed.

(** A typed line without backspace, carriage return and line feed comes
    back byte for byte, whatever bytes it is made of. *)
Lemma readPasswordLine_plain (line rest ret : string) :
  all plain line = true ->
  readPasswordLine (line ++ LF ++ rest) ret = (ret ++ line, None, rest).
Proof.
  revert ret. induction line as [|c line IH]; intros ret H.
  - cbn. now rewrite append_nil_r.
  - cbn [all] in H. apply andb_true_iff in H as [Hc Hl].
    cbn [append]. rewrite readPasswordLine_plain_byte by exact Hc.
    rewrite IH by exact Hl. now rewrite append_assoc.
Qed.

Lemma ReadPassword_streams (w : World) :
  stdout (snd (ReadPassword w)) = stdout w /\
  stderr (snd (ReadPassword w)) = stderr w.
Proof.
  unfold ReadPassword. destruct (stdin_tty w); [|split; reflexivity].
  destruct (readPasswordLine _ _) as [[b e] r]. split; reflexivity.
Qed.

(** Whatever bytes the first hidden read delivers, if there are any, are
    the result; nothing is cut off or changed. *)
Lemma PasswordPrompt_first_read (n : nat) (label b : string)
    (e : option error) (w w1 : World) :
  ReadPassword (Fprint Stderr (label ++ " ") w) = (b, e, w1) ->
  b <> "" ->
  PasswordPrompt (S n) label w = Returned b (Println w1).
Proof.
  intros R Hb. cbn [PasswordPrompt]. rewrite R.
  apply String.eqb_neq in Hb. now rewrite Hb.
Qed.

(** C7, what the code does.  Whenever the password prompt returns, it
    has written its label to standard error, once per cycle, and one
    line feed to standard output. *)
Theorem C7_PasswordPrompt_newline_on_stdout (n : nat) (label s : string)
    (w w' : World) :
  PasswordPrompt n label w = Returned s w' ->
  stdout w' = stdout w ++ LF /\
  exists k, stderr w' = stderr w ++ repeat (label ++ " ") k.
Proof.
  revert w. induction n as [|n IH]; intros w; [discriminate|].
  cbn [PasswordPrompt].
  pose proof (ReadPassword_streams (Fprint Stderr (label ++ " ") w)) as [Ho He].
  destruct (ReadPassword _) as [[b e] w1]. cbn [snd] in Ho, He.
  destruct (negb (b =? "")).
  - intros H. injection H as _ <-. split.
    + cbn. now rewrite Ho.
    + exists 1. cbn. rewrite He. cbn. now rewrite append_nil_r.
  - intros H. apply IH in H as [H1 [k H2]]. split.
    + now rewrite H1, Ho.
    + exists (S k). rewrite H2, He. cbn. now rewrite append_assoc.
Qed.

Lemma C7_PasswordPrompt_newline_on_stdout_witness :
  PasswordPrompt 1 "Password:" (terminal ("hunter2" ++ LF))
  = Returned "hunter2" (mkWorld "" true LF "Password: " []) /\
  stdout (mkWorld "" true LF "Password: " []) = stdout (terminal ("hunter2" ++ LF)) ++ LF.
Proof.
  split; [reflexivity|].
  apply (C7_PasswordPrompt_newline_on_stdout 1 "Password:" "hunter2"
           (terminal ("hunter2" ++ LF)) (mkWorld "" true LF "Password: " [])
           eq_refl).
Defined.

(** C8.  At a terminal a typed line that is not empty is returned as it
    was typed, spaces included; the text prompt returns the same line
    trimmed. *)
Theorem C8_PasswordPrompt_verbatim (n : nat) (label line rest : string)
    (out err : string) (ask : list MultiSelect) :
  line <> "" -> all plain line = true ->
  PasswordPrompt (S n) label (mkWorld (line ++ LF ++ rest) true out err ask)
  = Returned line (mkWorld rest true (out ++ LF) (err ++ (label ++ " ")) ask) /\
  StringPrompt (S n) label (mkWorld (line ++ LF ++ rest) true out err ask)
  = Returned (TrimSpace (line ++ LF))
      (mkWorld rest true out (err ++ (label ++ " ")) ask).
Proof.
  intros Hne Hp. split.
  - cbn [PasswordPrompt]. unfold ReadPassword, Fprint, set_stdin.
    cbn [stdin stdin_tty stdout stderr asked].
    rewrite readPasswordLine_plain by exact Hp. cbn [append].
    apply String.eqb_neq in Hne. rewrite Hne. reflexivity.
  - apply StringPrompt_line. now apply plain_notLF.
Qed.

Lemma C8_PasswordPrompt_verbatim_witness :
  "   " <> "" /\ all plain "   " = true /\
  PasswordPrompt 1 "Password:" (mkWorld ("   " ++ LF ++ "") true "" "" [])
  = Returned "   " (mkWorld "" true ("" ++ LF) ("" ++ ("Password:" ++ " ")) []) /\
  StringPrompt 1 "Password:" (mkWorld ("   " ++ LF ++ "") true "" "" [])
  = Returned "" (mkWorld "" true "" ("" ++ ("Password:" ++ " ")) []).
Proof.
  split; [discriminate|]. split; [reflexivity|].
  apply (C8_PasswordPrompt_verbatim 0 "Password:" "   " "" "" "" []);
    [discriminate | reflexivity].
Defined.


End Password.

(** ** The check boxes *)

Section Selection.

Lemma appendAll_Slice (l xs : list string) :
  appendAll (Slice l) xs = Slice (l ++ xs).
Proof.
  revert l. induction xs as [|x xs IH]; intros l; cbn [appendAll elems].
  - now rewrite app_nil_r.
  - now rewrite IH, <- app_assoc.
Qed.

Variable collaborator : MultiSelect -> World -> Answer * World.

Lemma Checkboxes_eq (label : string) (opts : list string) (w : World) :
  Checkboxes collaborator label opts w
  = Returned
      (Slice match fst (collaborator (mkMultiSelect label opts) w) with
             | AskError => []
             | Chosen l => l
             end)
      (set_asked (asked w ++ [mkMultiSelect label opts])
         (snd (collaborator (mkMultiSelect label opts) w))).
Proof.
  unfold Checkboxes, AskOne.
  destruct (collaborator _ w) as [[|l] w1]; cbn [fst snd]; [reflexivity|].
  now rewrite appendAll_Slice.
Qed.



(** C10.  The check boxes return a slice that is not [nil]: the chosen
    options when the selection library answers, and the empty slice that
    [res] was set to when it fails (the error is dropped) or nothing was
    chosen. *)
Theorem C10_Checkboxes_not_nil (label : string) (opts : list string)
    (w : World) :
  exists l w',
    Checkboxes collaborator label opts w = Returned (Slice l) w' /\
    is_nil (Slice l) = false /\
    l = match fst (collaborator (mkMultiSelect label opts) w) with
        | AskError => []
        | Chosen c => c
        end.
Proof.
  rewrite Checkboxes_eq. eexists; eexists. repeat split.
Qed.

End Selection.




(** ** More on trimming and reading

    Strings of bytes below [utf8.RuneSelf] are trimmed by the two byte
    loops of [TrimSpace] alone. *)

Section TrimASCII.

Lemma all_true_nil (p : ascii -> bool) (a b : string) :
  all p (a ++ b) = true -> all p a = true /\ all p b = true.
Proof. rewrite all_app. apply andb_true_iff. Qed.

Lemma trimStop_ascii (r : string) :
  all isASCII r = true ->
  exists ws r',
    r = ws ++ r' /\ all asciiSpace ws = true /\ trimStop r = rev r' /\
    (r' = "" \/ exists c t, r' = String c t /\ visible c = true).
Proof.
  induction r as [|c r IH]; intros H.
  - exists "", "". repeat split. now left.
  - cbn [all] in H. apply andb_true_iff in H as [Hc Hr].
    destruct (asciiSpace c) eqn:Sc.
    + destruct (IH Hr) as (ws & r' & E & Hws & T & Hr').
      assert (T' : trimStop (String c r) = trimStop r)
        by (cbn [trimStop]; now rewrite Hc, Sc).
      rewrite T'. exists (String c ws), r'. cbn [append all].
      rewrite Sc, <- E. repeat split; assumption.
    + assert (T' : trimStop (String c r) = rev (String c r))
        by (cbn [trimStop]; now rewrite Hc, Sc).
      rewrite T'. exists "", (String c r). cbn [append all]. repeat split.
      right. exists c, r. split; [reflexivity|].
      unfold visible. now rewrite Hc, Sc.
Qed.

Lemma head_app (a b : string) : a <> "" -> head (a ++ b) = head a.
Proof. destruct a; [congruence | reflexivity]. Qed.

(** What [TrimSpace] does to such a string: it takes spaces off both
    ends, and what is left is empty or has a visible byte at each end. *)
Lemma TrimSpace_ascii (s : string) :
  all isASCII s = true ->
  exists lead trail,
    s = lead ++ TrimSpace s ++ trail /\
    all asciiSpace lead = true /\ all asciiSpace trail = true /\
    (TrimSpace s = "" \/ edges (TrimSpace s) = true).
Proof.
  induction s as [|c s IH]; intros H.
  - exists "", "". repeat split. now left.
  - pose proof H as Hall.
    cbn [all] in H. apply andb_true_iff in H as [Hc Hs].
    destruct (asciiSpace c) eqn:Sc.
    + destruct (IH Hs) as (lead & trail & E & Hl & Ht & Hedge).
      assert (T : TrimSpace (String c s) = TrimSpace s)
        by (cbn [TrimSpace]; now rewrite Hc, Sc).
      rewrite T. exists (String c lead), trail. cbn [append all].
      rewrite Sc, <- E. repeat split; assumption.
    + assert (T : TrimSpace (String c s) = trimStop (rev (String c s)))
        by (cbn [TrimSpace]; now rewrite Hc, Sc).
      rewrite <- all_rev in Hall.
      destruct (trimStop_ascii _ Hall) as (ws & r' & E & Hws & T' & Hr').
      assert (E' : String c s = rev r' ++ rev ws)
        by (now rewrite <- rev_app, <- E, rev_involutive).
      rewrite T, T'. exists "", (rev ws). cbn [append all].
      split; [exact E'|]. split; [reflexivity|].
      split; [now rewrite all_rev|]. right.
      destruct Hr' as [-> | (c' & t' & -> & Vc')].
      * cbn [rev append] in E'.
        assert (A : all asciiSpace (String c s) = true)
          by (now rewrite E', all_rev).
        cbn [all] in A. rewrite Sc in A. discriminate.
      * unfold edges, last. rewrite rev_involutive. cbn [head].
        assert (Hh : head (rev (String c' t')) = Some c).
        { rewrite <- (head_app _ (rev ws)); [now rewrite <- E'|].
          cbn [rev]. destruct (rev t'); discriminate. }
        rewrite Hh, Vc'. unfold visible. now rewrite Hc, Sc.
Qed.

(** Spaces after such a string make no difference. *)
Lemma TrimSpace_ascii_app (s ws : string) :
  all isASCII s = true -> all asciiSpace ws = true ->
  TrimSpace (s ++ ws) = TrimSpace s.
Proof.
  intros Hs Hws.
  destruct (TrimSpace_ascii s Hs) as (lead & trail & E & Hl & Ht & Hedge).
  rewrite E at 1. destruct Hedge as [T | T].
  - rewrite T. cbn [append]. apply TrimSpace_blank.
    rewrite !all_app. now rewrite Hl, Ht, Hws.
  - rewrite !append_assoc. apply TrimSpace_padded; try assumption.
    rewrite all_app. now rewrite Ht, Hws.
Qed.

End TrimASCII.

Section ReadLemmas.

(** A last line that the end of the stream cuts short is read whole,
    together with [EOF]. *)
Lemma readString_eof (x : string) :
  all notLF x = true ->
  readString (ascii_of_N 10) x = (x, Some EOF, "").
Proof.
  induction x as [|c x IH]; cbn [all readString]; [reflexivity|].
  intros H. apply andb_true_iff in H as [Hc Hx].
  unfold notLF in Hc. apply negb_true_iff in Hc. now rewrite Hc, (IH Hx).
Qed.

(** A read splits the input in the line and the rest, and takes a byte
    when there is one. *)
Lemma readString_split (d : ascii) (s l r : string) (e : option error) :
  readString d s = (l, e, r) ->
  s = l ++ r /\ (s <> "" -> l <> "").
Proof.
  revert l r e. induction s as [|c s IH]; cbn [readString]; intros l r e H.
  - injection H as <- _ <-. split; [reflexivity | congruence].
  - destruct (Ascii.eqb c d).
    + injection H as <- _ <-. split; [reflexivity | discriminate].
    + destruct (readString d s) as [[l0 e0] r0].
      injection H as <- _ <-. destruct (IH l0 r0 e0 eq_refl) as [E _].
      split; [cbn [append]; now rewrite <- E | discriminate].
Qed.

Lemma repeat_snoc (h : string) (k : nat) : repeat h k ++ h = repeat h (S k).
Proof.
  induction k as [|k IH]; cbn [repeat append].
  - now rewrite append_nil_r.
  - rewrite append_assoc. now rewrite IH.
Qed.

Lemma length_app (a b : string) :
  String.length (a ++ b) = String.length a + String.length b.
Proof. induction a as [|c a IH]; cbn; [reflexivity | now rewrite IH]. Qed.

Lemma readString_shorter (d : ascii) (s l r : string) (e : option error) :
  readString d s = (l, e, r) -> s <> "" ->
  String.length r < String.length s.
Proof.
  intros H Hs. destruct (readString_split d s l r e H) as [E Hl].
  specialize (Hl Hs). rewrite E, length_app.
  destruct l; [congruence | cbn; lia].
Qed.

End ReadLemmas.

(** ** The text prompt on any input *)

Section TextMore.



(** X2.  A last line without a line feed, ended by the end of the stream, is
    taken like any other line. *)
Theorem StringPrompt_unterminated (n : nat) (label body : string)
    (tty : bool) (out err : string) (ask : list MultiSelect) :
  body <> "" -> all notLF body = true ->
  StringPrompt (S n) label (mkWorld body tty out err ask)
  = Returned (TrimSpace body) (mkWorld "" tty out (err ++ (label ++ " ")) ask).
Proof.
  intros Hne H. cbn [StringPrompt]. unfold ReadString, Fprint, set_stdin.
  cbn [stdin stdin_tty stdout stderr asked].
  rewrite (readString_eof body H).
  apply String.eqb_neq in Hne. now rewrite Hne.
Qed.

Lemma StringPrompt_unterminated_witness :
  "  Petr" <> "" /\ all notLF "  Petr" = true /\
  StringPrompt 1 "Name?" (mkWorld "  Petr" false "" "" [])
  = Returned "Petr" (mkWorld "" false "" ("" ++ ("Name?" ++ " ")) []).
Proof.
  split; [discriminate|]. split; [reflexivity|].
  apply (StringPrompt_unterminated 0 "Name?" "  Petr" false "" "" []);
    [discriminate | reflexivity].
Defined.

(** X3.  For a line of bytes below [utf8.RuneSelf] the result is a piece of
    the line: the line is spaces, the result, spaces; and the result is
    empty or begins and ends with a visible byte. *)
Theorem StringPrompt_result_shape (n : nat) (label body rest : string)
    (tty : bool) (out err : string) (ask : list MultiSelect) :
  all isASCII body = true -> all notLF body = true ->
  exists res lead trail,
    StringPrompt (S n) label (mkWorld (body ++ LF ++ rest) tty out err ask)
    = Returned res (mkWorld rest tty out (err ++ (label ++ " ")) ask) /\
    body = lead ++ res ++ trail /\
    all asciiSpace lead = true /\ all asciiSpace trail = true /\
    (res = "" \/ edges res = true).
Proof.
  intros Ha Hn.
  destruct (TrimSpace_ascii body Ha) as (lead & trail & E & Hl & Ht & He).
  exists (TrimSpace body), lead, trail.
  rewrite StringPrompt_line by exact Hn.
  rewrite TrimSpace_ascii_app by (assumption || reflexivity).
  repeat split; assumption.
Qed.

Lemma StringPrompt_result_shape_witness :
  all isASCII " a b  " = true /\ all notLF " a b  " = true /\
  exists res lead trail,
    StringPrompt 1 "Name?" (mkWorld (" a b  " ++ LF ++ "") false "" "" [])
    = Returned res (mkWorld "" false "" ("" ++ ("Name?" ++ " ")) []) /\
    " a b  " = lead ++ res ++ trail /\
    all asciiSpace lead = true /\ all asciiSpace trail = true /\
    (res = "" \/ edges res = true).
Proof.
  split; [reflexivity|]. split; [reflexivity|].
  apply (StringPrompt_result_shape 0 "Name?" " a b  " "" false "" "" []);
    reflexivity.
Defined.

(** X4.  The result of the text prompt, typed in again as a line, is returned
    as it is: trimming twice is trimming once. *)
Theorem StringPrompt_idempotent (n m : nat) (label label' body rest rest' : string)
    (tty tty' : bool) (out err out' err' : string)
    (ask ask' : list MultiSelect) (res : string) (w1 : World) :
  all isASCII body = true -> all notLF body = true ->
  StringPrompt (S n) label (mkWorld (body ++ LF ++ rest) tty out err ask)
  = Returned res w1 ->
  StringPrompt (S m) label' (mkWorld (res ++ LF ++ rest') tty' out' err' ask')
  = Returned res (mkWorld rest' tty' out' (err' ++ (label' ++ " ")) ask').
Proof.
  intros Ha Hn R.
  rewrite StringPrompt_line in R by exact Hn. injection R as <- _.
  rewrite TrimSpace_ascii_app by (assumption || reflexivity).
  destruct (TrimSpace_ascii body Ha) as (lead & trail & E & Hl & Ht & He).
  set (res := TrimSpace body) in *.
  assert (Hres : all notLF res = true /\ all isASCII res = true).
  { rewrite E in Hn, Ha.
    apply all_true_nil in Hn as [_ Hn]. apply all_true_nil in Hn as [Hn _].
    apply all_true_nil in Ha as [_ Ha]. apply all_true_nil in Ha as [Ha _].
    now split. }
  destruct Hres as [Hrn Hra].
  rewrite StringPrompt_line by exact Hrn.
  rewrite TrimSpace_ascii_app by (assumption || reflexivity).
  destruct He as [He | He].
  - now rewrite He.
  - rewrite <- (append_nil_r res) at 1.
    change (res ++ "") with ("" ++ res ++ "").
    now rewrite TrimSpace_padded.
Qed.

Lemma StringPrompt_idempotent_witness :
  all isASCII "  a  b " = true /\ all notLF "  a  b " = true /\
  StringPrompt 1 "Name?" (mkWorld ("  a  b " ++ LF ++ "") false "" "" [])
  = Returned "a  b" (mkWorld "" false "" "Name? " []) /\
  StringPrompt 1 "Again?" (mkWorld ("a  b" ++ LF ++ "x") true "" "" [])
  = Returned "a  b" (mkWorld "x" true "" ("" ++ ("Again?" ++ " ")) []).
Proof.
  split; [reflexivity|]. split; [reflexivity|]. split; [reflexivity|].
  apply (StringPrompt_idempotent 0 0 "Name?" "Again?" "  a  b " "" "x"
           false true "" "" "" "" [] [] "a  b"
           (mkWorld "" false "" "Name? " []));
    reflexivity.
Defined.

(** X5.  Whatever the input and however far the loop has got, the text prompt
    has written nothing to standard output, has written its label to
    standard error once per cycle and nothing else, has taken a prefix of
    the input, and has left the rest of the world alone. *)
Theorem StringPrompt_effects (n : nat) (label : string) (w : World) :
  let w' := world_of (StringPrompt n label w) in
  stdout w' = stdout w /\ stdin_tty w' = stdin_tty w /\ asked w' = asked w /\
  exists k taken,
    k <= n /\ stderr w' = stderr w ++ repeat (label ++ " ") k /\
    stdin w = taken ++ stdin w'.
Proof.
  revert w. induction n as [|n IH]; intros w.
  - cbn. repeat split. exists 0, "". cbn. now rewrite append_nil_r.
  - cbn zeta. cbn [StringPrompt]. unfold ReadString.
    cbn [Fprint stdin].
    destruct (readString _ (stdin w)) as [[l e] r] eqn:R.
    destruct (readString_split _ _ _ _ _ R) as [E _].
    destruct (negb (l =? "")).
    + cbn. repeat split. exists 1, l. cbn. rewrite append_nil_r.
      repeat split; [lia | exact E].
    + specialize (IH (set_stdin r (Fprint Stderr (label ++ " ") w))).
      cbn zeta in IH. destruct IH as (Ho & Ht & Ha & k & taken & Hk & He & Hi).
      cbn in Ho, Ht, Ha, He, Hi.
      repeat split; try assumption.
      exists (S k), (l ++ taken). repeat split; [lia | |].
      * rewrite He. cbn [repeat]. now rewrite !append_assoc.
      * rewrite E, Hi at 1. now rewrite append_assoc.
Qed.

End TextMore.

(** ** The yes/no prompt on any input *)

Section ConfirmMore.

Variable mapToLower : string -> string.

Lemma YesNoLoop_terminates (label choices : string) (def : bool) (m : nat) :
  forall w, String.length (stdin w) <= m ->
  exists b w', YesNoLoop mapToLower (S m) label choices def w = Returned b w'.
Proof.
  induction m as [|m IH]; intros w Hlen.
  - destruct (stdin w) eqn:Es; [|cbn in Hlen; lia].
    cbn [YesNoLoop]. unfold ReadString. cbn [Fprint stdin]. rewrite Es.
    cbn. eexists; eexists; reflexivity.
  - cbn [YesNoLoop]. unfold ReadString. cbn [Fprint stdin].
    destruct (readString _ (stdin w)) as [[l e] r] eqn:R.
    destruct (TrimSpace l =? "") eqn:T; [eexists; eexists; reflexivity|].
    destruct (_ || _); [eexists; eexists; reflexivity|].
    destruct (_ || _); [eexists; eexists; reflexivity|].
    apply IH. cbn [set_stdin stdin].
    assert (Hs : stdin w <> "").
    { intros Es. rewrite Es in R. cbn in R. injection R as <- _ _.
      discriminate T. }
    pose proof (readString_shorter _ _ _ _ _ R Hs). lia.
Qed.

(** X6.  On every input the yes/no prompt returns, at the latest when the
    input has run out: as many cycles as the input has bytes, and one
    more, are enough. *)
Theorem YesNoPrompt_terminates (n : nat) (label : string) (def : bool)
    (w : World) :
  exists b w',
    YesNoPrompt mapToLower (S (String.length (stdin w) + n)) label def w
    = Returned b w'.
Proof. apply YesNoLoop_terminates. lia. Qed.

Lemma YesNoLoop_skips (label choices : string) (def : bool)
    (lines : list string) (rest : string) (tty : bool) (out : string)
    (ask : list MultiSelect) (n : nat) :
  forallb (fun b => all notLF b && unrecognised mapToLower b) lines = true ->
  forall err,
  YesNoLoop mapToLower (List.length lines + n) label choices def
    (mkWorld (unlines lines ++ rest) tty out err ask)
  = YesNoLoop mapToLower n label choices def
      (mkWorld rest tty out
         (err ++ repeat (hint label choices) (List.length lines)) ask).
Proof.
  induction lines as [|b lines IH]; intros H err.
  - cbn. now rewrite append_nil_r.
  - cbn [forallb] in H. apply andb_true_iff in H as [Hb Hl].
    apply andb_true_iff in Hb as [Hn Hu].
    cbn [List.length Nat.add unlines].
    rewrite !append_assoc. rewrite YesNoLoop_line by exact Hn.
    cbv zeta. unfold unrecognised in Hu.
    apply andb_true_iff in Hu as [Hu Hno]. apply andb_true_iff in Hu as [Ht Hy].
    apply negb_true_iff in Ht, Hy, Hno. rewrite Ht, Hy, Hno.
    rewrite (IH Hl). cbn [repeat]. now rewrite append_assoc.
Qed.

(** X7.  Lines that are no answer are passed over one by one, each at the
    price of one more hint, and the prompt goes on with what follows
    them; when nothing follows, it returns the default. *)
Theorem YesNoPrompt_skips_unrecognised (n : nat) (label : string)
    (def : bool) (lines : list string) (rest : string) (tty : bool)
    (out err : string) (ask : list MultiSelect) :
  forallb (fun b => all notLF b && unrecognised mapToLower b) lines = true ->
  let h := hint label (choicesOf def) in
  YesNoPrompt mapToLower (List.length lines + n) label def
    (mkWorld (unlines lines ++ rest) tty out err ask)
  = YesNoPrompt mapToLower n label def
      (mkWorld rest tty out (err ++ repeat h (List.length lines)) ask) /\
  YesNoPrompt mapToLower (List.length lines + S n) label def
    (mkWorld (unlines lines) tty out err ask)
  = Returned def
      (mkWorld "" tty out (err ++ repeat h (S (List.length lines))) ask).
Proof.
  intros H h. unfold YesNoPrompt. split.
  - now apply YesNoLoop_skips.
  - rewrite <- (append_nil_r (unlines lines)).
    rewrite YesNoLoop_skips by exact H. rewrite YesNoLoop_eof.
    now rewrite append_assoc, repeat_snoc.
Qed.

(** X8.  A last line without a line feed is answered like any other line,
    except that a line that is no answer is followed by the end of the
    stream and so by the default. *)
Theorem YesNoPrompt_unterminated (n : nat) (label : string) (def : bool)
    (body : string) (tty : bool) (out err : string)
    (ask : list MultiSelect) :
  all notLF body = true ->
  let t := TrimSpace body in
  let l := ToLower mapToLower t in
  exists w',
    YesNoPrompt mapToLower (S (S n)) label def (mkWorld body tty out err ask)
    = Returned
        (if t =? "" then def
         else if (l =? "y") || (l =? "yes") then true
         else if (l =? "n") || (l =? "no") then false
         else def) w' /\
    stdin w' = "".
Proof.
  intros H t l. unfold YesNoPrompt. cbn [YesNoLoop]. unfold ReadString.
  cbn [Fprint stdin]. rewrite (readString_eof body H).
  fold t. destruct (t =? ""); [eexists; split; reflexivity|].
  fold l. destruct (_ || _); [eexists; split; reflexivity|].
  destruct (_ || _); eexists; split; reflexivity.
Qed.

Lemma YesNoLoop_effects (n : nat) (label choices : string) (def : bool) :
  forall w,
  let w' := world_of (YesNoLoop mapToLower n label choices def w) in
  stdout w' = stdout w /\ stdin_tty w' = stdin_tty w /\ asked w' = asked w /\
  exists k taken,
    k <= n /\ stderr w' = stderr w ++ repeat (hint label choices) k /\
    stdin w = taken ++ stdin w'.
Proof.
  induction n as [|n IH]; intros w0.
  - cbn. repeat split. exists 0, "". cbn. now rewrite append_nil_r.
  - cbn zeta. cbn [YesNoLoop]. unfold ReadString. cbn [Fprint stdin].
    destruct (readString _ (stdin w0)) as [[l e] r] eqn:R.
    destruct (readString_split _ _ _ _ _ R) as [E _].
    assert (One : forall b : bool,
      let w' := world_of (Returned b
                  (set_stdin r (Fprint Stderr (hint label choices) w0))) in
      stdout w' = stdout w0 /\ stdin_tty w' = stdin_tty w0 /\
      asked w' = asked w0 /\
      exists k taken,
        k <= S n /\ stderr w' = stderr w0 ++ repeat (hint label choices) k /\
        stdin w0 = taken ++ stdin w').
    { intros b. cbn. repeat split. exists 1, l. cbn.
      rewrite append_nil_r. repeat split; [lia | exact E]. }
    destruct (TrimSpace l =? ""); [apply One|].
    destruct (_ || _); [apply One|].
    destruct (_ || _); [apply One|].
    specialize (IH (set_stdin r (Fprint Stderr (hint label choices) w0))).
    cbn zeta in IH.
    destruct IH as (Ho & Ht & Ha & k & taken & Hk & He & Hi).
    cbn in Ho, Ht, Ha, He, Hi.
    repeat split; try assumption.
    exists (S k), (l ++ taken). repeat split; [lia | |].
    + rewrite He. cbn [repeat]. now rewrite !append_assoc.
    + rewrite E, Hi at 1. now rewrite append_assoc.
Qed.

(** X10.  Whatever the input and however far the loop has got, the yes/no
    prompt has written nothing to standard output, has written to
    standard error the label with the hint [(Y/n)] for the default [true]
    and [(y/N)] for the default [false], once per cycle, has taken a
    prefix of the input, and has left the rest of the world alone. *)
Theorem YesNoPrompt_effects (n : nat) (label : string) (def : bool)
    (w : World) :
  let w' := world_of (YesNoPrompt mapToLower n label def w) in
  let h := label ++ (if def then " (Y/n) " else " (y/N) ") in
  stdout w' = stdout w /\ stdin_tty w' = stdin_tty w /\ asked w' = asked w /\
  exists k taken,
    k <= n /\ stderr w' = stderr w ++ repeat h k /\
    stdin w = taken ++ stdin w'.
Proof.
  unfold YesNoPrompt.
  destruct def; exact (YesNoLoop_effects n label _ _ w).
Qed.

Lemma mapBytes_lower_cons (tok : string) (x : ascii) (w : string) :
  mapBytes lowerByte tok = String x w ->
  exists a t, tok = String a t /\ lowerByte a = x /\ mapBytes lowerByte t = w.
Proof.
  destruct tok as [|a t]; cbn [mapBytes]; intros H; [discriminate|].
  injection H as H1 H2. now exists a, t.
Qed.

Lemma mapBytes_lower_nil (tok : string) :
  mapBytes lowerByte tok = "" -> tok = "".
Proof. destruct tok; [reflexivity | discriminate]. Qed.

(** X9.  The answers may be written in capitals, in small letters or in a mix
    of both: every spelling that the byte-wise lower case turns into
    ["y"] or ["yes"] returns [true], into ["n"] or ["no"] returns
    [false], whatever the default. *)
Theorem YesNoPrompt_any_case (n : nat) (label : string) (def ans : bool)
    (tok rest : string) (tty : bool) (out err : string)
    (ask : list MultiSelect) :
  mapBytes lowerByte tok = (if ans then "y" else "n") \/
  mapBytes lowerByte tok = (if ans then "yes" else "no") ->
  YesNoPrompt mapToLower (S n) label def
    (mkWorld (tok ++ LF ++ rest) tty out err ask)
  = Returned ans
      (mkWorld rest tty out (err ++ hint label (choicesOf def)) ask).
Proof.
  intros H. unfold YesNoPrompt.
  destruct ans; destruct H as [H | H];
    repeat (let a := fresh "a" in
            let Ha := fresh "Ha" in
            apply mapBytes_lower_cons in H as (a & ? & -> & Ha & H);
            each_byte a; try (vm_compute in Ha; discriminate Ha); clear Ha);
    apply mapBytes_lower_nil in H; subst;
    now rewrite YesNoLoop_line.
Qed.

End ConfirmMore.

Lemma YesNoPrompt_skips_unrecognised_witness :
  forallb (fun b => all notLF b && unrecognised (fun s => s) b)
    ["maybe"; "yess"; "-"] = true /\
  YesNoPrompt (fun s => s) (List.length ["maybe"; "yess"; "-"] + 1) "Sure?" false
    (mkWorld (unlines ["maybe"; "yess"; "-"] ++ "Y") false "" "" [])
  = YesNoPrompt (fun s => s) 1 "Sure?" false
      (mkWorld "Y" false ""
         ("" ++ repeat (hint "Sure?" (choicesOf false))
                  (List.length ["maybe"; "yess"; "-"])) []).
Proof.
  split; [reflexivity|].
  apply (YesNoPrompt_skips_unrecognised (fun s => s) 1 "Sure?" false
           ["maybe"; "yess"; "-"] "Y" false "" "" []).
  reflexivity.
Defined.

Lemma YesNoPrompt_unterminated_witness :
  all notLF " No" = true /\
  exists w',
    YesNoPrompt (fun s => s) 2 "Sure?" true (mkWorld " No" false "" "" [])
    = Returned false w' /\ stdin w' = "".
Proof.
  split; [reflexivity|].
  apply (YesNoPrompt_unterminated (fun s => s) 0 "Sure?" true " No"
           false "" "" []).
  reflexivity.
Defined.

Lemma YesNoPrompt_any_case_witness :
  (mapBytes lowerByte "yEs" = "y" \/ mapBytes lowerByte "yEs" = "yes") /\
  YesNoPrompt (fun s => s) 1 "Sure?" false
    (mkWorld ("yEs" ++ LF ++ "") false "" "" [])
  = Returned true (mkWorld "" false "" ("" ++ hint "Sure?" (choicesOf false)) []).
Proof.
  split; [right; reflexivity|].
  apply (YesNoPrompt_any_case (fun s => s) 0 "Sure?" false true "yEs" ""
           false "" "" []).
  right. reflexivity.
Defined.

(** ** The password prompt on any input *)

Section PasswordMore.

Lemma PasswordPrompt_empty_line (n : nat) (label s : string)
    (out err : string) (ask : list MultiSelect) :
  PasswordPrompt (S n) label (mkWorld (LF ++ s) true out err ask)
  = PasswordPrompt n label (mkWorld s true out (err ++ (label ++ " ")) ask).
Proof. reflexivity. Qed.

(** X11.  At a terminal empty lines are asked again: after [k] empty lines the
    next line that is not empty is the result; the label has then been
    written [k + 1] times and standard output holds one line feed. *)
Theorem PasswordPrompt_retries_empty (n k : nat) (label line rest : string)
    (out err : string) (ask : list MultiSelect) :
  line <> "" -> all plain line = true ->
  PasswordPrompt (k + S n) label
    (mkWorld (repeat LF k ++ line ++ LF ++ rest) true out err ask)
  = Returned line
      (mkWorld rest true (out ++ LF) (err ++ repeat (label ++ " ") (S k)) ask).
Proof.
  intros Hne Hp. revert err. induction k as [|k IH]; intros err.
  - cbn [repeat append Nat.add]. rewrite append_nil_r.
    cbn [PasswordPrompt]. unfold ReadPassword, Fprint, set_stdin.
    cbn [stdin stdin_tty stdout stderr asked].
    rewrite readPasswordLine_plain by exact Hp. cbn [append].
    apply String.eqb_neq in Hne. now rewrite Hne.
  - cbn [repeat Nat.add]. rewrite append_assoc.
    rewrite PasswordPrompt_empty_line, IH.
    cbn [repeat]. now rewrite !append_assoc.
Qed.

Lemma PasswordPrompt_retries_empty_witness :
  " s3cret " <> "" /\ all plain " s3cret " = true /\
  PasswordPrompt (2 + 1) "Password:"
    (mkWorld (repeat LF 2 ++ " s3cret " ++ LF ++ "rest") true "" "" [])
  = Returned " s3cret "
      (mkWorld "rest" true ("" ++ LF) ("" ++ repeat ("Password:" ++ " ") 3) []).
Proof.
  split; [discriminate|]. split; [reflexivity|].
  apply (PasswordPrompt_retries_empty 0 2 "Password:" " s3cret " "rest" "" "" []);
    [discriminate | reflexivity].
Defined.

(** X12.  The result of the password prompt is never the empty string. *)
Theorem PasswordPrompt_result_not_empty (n : nat) (label s : string)
    (w w' : World) :
  PasswordPrompt n label w = Returned s w' -> s <> "".
Proof.
  revert w. induction n as [|n IH]; intros w; [discriminate|].
  cbn [PasswordPrompt]. destruct (ReadPassword _) as [[b e] w1].
  destruct (b =? "") eqn:B; cbn [negb].
  - apply IH.
  - intros H. injection H as <- _. now apply String.eqb_neq.
Qed.

Lemma PasswordPrompt_result_not_empty_witness :
  PasswordPrompt 2 "Password:" (terminal (LF ++ " " ++ LF))
  = Returned " " (mkWorld "" true LF "Password: Password: " []) /\
  " " <> "".
Proof.
  split; [reflexivity|].
  apply (PasswordPrompt_result_not_empty 2 "Password:" " "
           (terminal (LF ++ " " ++ LF))
           (mkWorld "" true LF "Password: Password: " [])).
  reflexivity.
Defined.


End PasswordMore.

(** ** The programs *)

Section Programs.




(** X15.  The text program at the edges of its input: for an empty first line
    it greets nobody, with the greeting [Hello, !], and on input that is
    at its end it keeps writing the question and prints no greeting. *)
Theorem main_text_without_name (n : nat) (rest : string) (tty : bool)
    (out err : string) (ask : list MultiSelect) :
  main_text (S n) (mkWorld (LF ++ rest) tty out err ask)
  = Returned tt
      (mkWorld rest tty (out ++ "Hello, !" ++ LF)
         (err ++ "What is your name? ") ask) /\
  main_text n (mkWorld "" tty out err ask)
  = Pending
      (mkWorld "" tty out (err ++ repeat "What is your name? " n) ask).
Proof.
  split.
  - reflexivity.
  - unfold main_text. now rewrite StringPrompt_eof.
Qed.

(** X16.  The yes/no program ends on every input and prints one of its two
    answers, once; on input that is at its end the answer is [Agree!],
    the default. *)
Theorem main_yesno_answers (mapToLower : string -> string) (n : nat)
    (w : World) (tty : bool) (out err : string) (ask : list MultiSelect) :
  (exists w',
     main_yesno mapToLower (S (String.length (stdin w) + n)) w = Returned tt w' /\
     (stdout w' = stdout w ++ "Agree!" ++ LF \/
      stdout w' = stdout w ++ "Huh?" ++ LF)) /\
  main_yesno mapToLower (S n) (mkWorld "" tty out err ask)
  = Returned tt
      (mkWorld "" tty (out ++ "Agree!" ++ LF)
         (err ++ "Dev.to is awesome! (Y/n) ") ask).
Proof.
  split; [|reflexivity].
  unfold main_yesno.
  pose proof (YesNoPrompt_stdout mapToLower
                (S (String.length (stdin w) + n)) "Dev.to is awesome!" true w)
    as Ho.
  destruct (YesNoLoop_terminates mapToLower "Dev.to is awesome!"
              (choicesOf true) true (String.length (stdin w) + n) w)
    as (b & w1 & R); [lia|].
  unfold YesNoPrompt in *. rewrite R in *. cbn [andThen world_of] in *.
  destruct b; eexists; (split; [reflexivity|]); cbn; rewrite Ho; auto.
Qed.

Lemma literal_plain (s : string) : all literal s = true -> all plain s = true.
Proof.
  induction s as [|c s IH]; cbn [all]; [reflexivity|].
  intros H. apply andb_true_iff in H as [Hc Hs]. rewrite (IH Hs), andb_true_r.
  revert Hc. each_byte c; vm_compute; congruence.
Qed.

Lemma literal_isASCII (s : string) : all literal s = true -> all isASCII s = true.
Proof.
  induction s as [|c s IH]; cbn [all]; [reflexivity|].
  intros H. apply andb_true_iff in H as [Hc Hs]. rewrite (IH Hs), andb_true_r.
  revert Hc. each_byte c; vm_compute; congruence.
Qed.

Lemma escapeBytes_literal (s : string) : all literal s = true -> escapeBytes s = s.
Proof.
  induction s as [|c s IH]; cbn [all escapeBytes]; [reflexivity|].
  intros H. apply andb_true_iff in H as [Hc Hs]. rewrite (IH Hs).
  revert Hc. each_byte c; vm_compute; congruence.
Qed.

(** X17.  The password program shows the password on standard output, between
    double quotes and after the line feed of the prompt; a password of
    printable bytes without double quote and backslash is shown as it was
    typed. *)
Theorem main_password_shows (quoteUnicode : string -> string) (n : nat)
    (line rest : string) (out err : string) (ask : list MultiSelect) :
  line <> "" -> all literal line = true ->
  main_password quoteUnicode (S n) (mkWorld (line ++ LF ++ rest) true out err ask)
  = Returned tt
      (mkWorld rest true
         (out ++ LF ++ "Oh, I see! Your password is "
              ++ String DQ (line ++ String DQ "") ++ LF)
         (err ++ "What is your password? ") ask).
Proof.
  intros Hne Hl. unfold main_password.
  cbn [PasswordPrompt]. unfold ReadPassword, Fprint, set_stdin.
  cbn [stdin stdin_tty stdout stderr asked].
  rewrite readPasswordLine_plain by (now apply literal_plain). cbn [append].
  apply String.eqb_neq in Hne. rewrite Hne. cbn [negb andThen Println Fprint].
  cbn [stdin stdin_tty stdout stderr asked].
  unfold Quote. rewrite (literal_isASCII _ Hl), (escapeBytes_literal _ Hl).
  cbn [append]. now rewrite !append_assoc.
Qed.

Lemma main_password_shows_witness :
  "pa ss" <> "" /\ all literal "pa ss" = true /\
  main_password (fun s => s) 1 (mkWorld ("pa ss" ++ LF ++ "") true "" "" [])
  = Returned tt
      (mkWorld "" true
         ("" ++ LF ++ "Oh, I see! Your password is "
             ++ String DQ ("pa ss" ++ String DQ "") ++ LF)
         ("" ++ "What is your password? ") []).
Proof.
  split; [discriminate|]. split; [reflexivity|].
  apply (main_password_shows (fun s => s) 0 "pa ss" "" "" "" []);
    [discriminate | reflexivity].
Defined.

(** X18.  The check box program always ends with its sentence on standard
    output, after whatever the selection library wrote there: the chosen
    options joined by a comma and a space, or nothing after [like] when
    the selection failed or nothing was chosen.  The library is asked
    once, for the twenty languages. *)
Theorem main_checkboxes_reports
    (collaborator : MultiSelect -> World -> Answer * World) (w : World) :
  let p := mkMultiSelect "Which are your favourite programming languages?"
             languages in
  let chosen := match fst (collaborator p w) with
                | AskError => []
                | Chosen l => l
                end in
  exists w',
    main_checkboxes collaborator w = Returned tt w' /\
    stdout w'
    = stdout (snd (collaborator p w)) ++ "Oh, I see! You like "
        ++ Join chosen ", " ++ LF /\
    stderr w' = stderr (snd (collaborator p w)) /\
    stdin w' = stdin (snd (collaborator p w)) /\
    asked w' = (asked w ++ [p])%list.
Proof.
  intros p chosen. unfold main_checkboxes.
  rewrite Checkboxes_eq. cbn [andThen elems]. fold p. fold chosen.
  eexists. split; [reflexivity|]. cbn. repeat split.
Qed.

End Programs.

(** The terminal check on a pipe and at a terminal. *)
Example main_interactive_pipe :
  main_interactive (piped ("Hello" ++ LF))
  = Returned tt
      (mkWorld ("Hello" ++ LF) false
         ("Terminal is not interactive! Consider using flags or environment variables!"
          ++ LF) "" []).
Proof. reflexivity. Qed.

Example main_interactive_terminal :
  main_interactive (terminal "")
  = Returned tt
      (mkWorld "" true
         ("Terminal is interactive! You're good to use prompts!" ++ LF) "" []).
Proof. reflexivity. Qed.
